(** * ngff-zarr: version registry and the 0.5 multiscales [Metadata] record

    A shallow embedding of
      - [ngff_zarr/_supported_versions.py]  (the version registry), and
      - [ngff_zarr/v05/zarr_metadata.py]    (the 0.5 [Metadata] dataclass),
    followed by the properties of the conversion contract.

    Python is dynamically typed and its dataclass instances are objects with
    identity, so the embedding keeps both: values are dynamic, records live
    in a store and are passed around by reference, and every method is a
    computation in a small state-and-exception monad over that store. *)

From stdpp Require Import base option list strings gmap fin_maps.

Open Scope string_scope.

(** ** The version registry ([_supported_versions.py]) *)

Definition SUPPORTED_VERSIONS : list string := ["0.4"; "0.5"; "0.6"].

Definition VERSION_ALIASES : gmap string string :=
  <["latest" := "0.6"]>
  (<["0.6" := "0.6"]>
  (<["0.5" := "0.5"]>
  (<["0.4" := "0.4"]> ∅))).

(** ** Dynamic values, classes and the object store *)

Definition loc := nat.

(** The classes the fragment can meet: the builtin types of the values
    below, the two [Metadata] dataclasses (the 0.4 one is imported by the
    source under the name [Metadata_v04]), and any other class, given by
    its module and its name.  Subclassing is not modelled: an object is an
    instance of its own class only. *)
Inductive class : Type :=
  | NoneType
  | int
  | str
  | list_
  | tuple
  | Metadata_v04
  | Metadata
  | UserClass (module name : string).

Global Instance class_eq_dec : EqDecision class.
Proof. solve_decision. Defined.

#[local] Set Warnings "-register-all".

(** Lists and tuples are carried as values: nothing in the fragment mutates
    one, so only the records need an identity. *)
Inductive value : Type :=
  | VNone
  | VInt (z : Z)
  | VStr (s : string)
  | VList (items : list value)
  | VTuple (items : list value)
  | VRef (l : loc).

(** An object is its class together with the data attributes that attribute
    lookup resolves on it. *)
Record object : Type := Object {
  obj_class : class;
  obj_attrs : gmap string value
}.

Abbreviation heap := (list object).

(** Python exceptions raised by the fragment: the two explicit
    [ValueError]s, and the [AttributeError] / [TypeError] the interpreter
    raises on a missing attribute (carrying the attribute's name) or on
    iterating something that is not iterable (carrying the type's name). *)
Inductive exn : Type :=
  | ValueError (msg : string)
  | AttributeError (attr : string)
  | TypeError (type_name : string).

Inductive result (A : Type) : Type :=
  | Return (a : A)
  | Raise (e : exn).
Arguments Return {A} a.
Arguments Raise {A} e.

(** ** The state-and-exception monad *)

Definition M (A : Type) : Type := heap → result A * heap.

Global Instance M_ret : MRet M := λ A a h, (Return a, h).
Global Instance M_bind : MBind M := λ A B f m h,
  match m h with
  | (Return a, h') => f a h'
  | (Raise e, h') => (Raise e, h')
  end.

Definition raise {A} (e : exn) : M A := λ h, (Raise e, h).

(** Instantiating a class: the new object gets the first unused address. *)
Definition new (c : class) (attrs : gmap string value) : M value :=
  λ h, (Return (VRef (List.length h)), (h ++ [Object c attrs])%list).

(** [type(v)].  A reference to an address that holds no object does not
    arise in a run; it is given the class [object], and the theorems that
    depend on the class of a reference assume it allocated. *)
Definition type_of (h : heap) (v : value) : class :=
  match v with
  | VNone => NoneType
  | VInt _ => int
  | VStr _ => str
  | VList _ => list_
  | VTuple _ => tuple
  | VRef l => match h !! l with
              | Some o => obj_class o
              | None => UserClass "builtins" "object"
              end
  end.

(** [isinstance(v, c)] *)
Definition isinstance (v : value) (c : class) : M bool :=
  λ h, (Return (bool_decide (type_of h v = c)), h).

Definition class_module (c : class) : string :=
  match c with
  | Metadata_v04 => "ngff_zarr.v04.zarr_metadata"
  | Metadata => "ngff_zarr.v05.zarr_metadata"
  | UserClass m _ => m
  | _ => "builtins"
  end.

Definition class_name (c : class) : string :=
  match c with
  | NoneType => "NoneType"
  | int => "int"
  | str => "str"
  | list_ => "list"
  | tuple => "tuple"
  | Metadata_v04 => "Metadata"
  | Metadata => "Metadata"
  | UserClass _ n => n
  end.

(** How a class prints inside an f-string: [<class 'module.Name'>], the
    module being left out for builtins. *)
Definition class_repr (c : class) : string :=
  if String.eqb (class_module c) "builtins"
  then "<class '" ++ class_name c ++ "'>"
  else "<class '" ++ class_module c ++ "." ++ class_name c ++ "'>".

(** [v.name], for the attribute names the fragment reads (the seven record
    fields and an axis's [name]): none of the builtin values has one of
    them, an object has those of its attribute map. *)
Definition getattr (v : value) (name : string) : M value :=
  λ h, match v with
       | VRef l =>
           match h !! l with
           | Some o =>
               match obj_attrs o !! name with
               | Some x => (Return x, h)
               | None => (Raise (AttributeError name), h)
               end
           | None => (Raise (AttributeError name), h)
           end
       | _ => (Raise (AttributeError name), h)
       end.

(** [iter(v)], run to the end: the items a [for] sees. *)
Definition chars (s : string) : list value :=
  (λ a, VStr (String a EmptyString)) <$> String.list_ascii_of_string s.

Definition iterate (v : value) : M (list value) :=
  λ h, match v with
       | VList items | VTuple items => (Return items, h)
       | VStr s => (Return (chars s), h)
       | _ => (Raise (TypeError (class_name (type_of h v))), h)
       end.

(** [x in l] for a string [x] and a list of strings [l]. *)
Definition py_in (x : string) (l : list string) : bool :=
  existsb (String.eqb x) l.

(** ** The dataclasses *)

(** The seven fields, in the order the 0.5 dataclass declares them. *)
Definition FIELDS : list string :=
  ["axes"; "datasets"; "coordinateTransformations"; "omero"; "name"; "type";
   "metadata"].

Definition record_attrs
    (axes datasets coordinateTransformations omero name type metadata : value)
    : gmap string value :=
  <["axes" := axes]>
  (<["datasets" := datasets]>
  (<["coordinateTransformations" := coordinateTransformations]>
  (<["omero" := omero]>
  (<["name" := name]>
  (<["type" := type]>
  (<["metadata" := metadata]> ∅)))))).

(** The generated [__init__] of the 0.5 dataclass, called with every field
    given: it stores its seven arguments in the new instance. *)
Definition Metadata_init
    (axes datasets coordinateTransformations omero name type metadata : value)
    : M value :=
  new Metadata
    (record_attrs axes datasets coordinateTransformations omero name type
       metadata).

(** Modelled from the spec: the 0.4 dataclass [Metadata] of
    [ngff_zarr/v04/zarr_metadata.py], which is not part of the fragment.
    The spec gives every version variant the same logical fields, and the
    source constructs it from exactly these seven keywords. *)
Definition Metadata_v04_init
    (axes datasets coordinateTransformations omero name type metadata : value)
    : M value :=
  new Metadata_v04
    (record_attrs axes datasets coordinateTransformations omero name type
       metadata).

(** ** The methods of the 0.5 [Metadata] ([v05/zarr_metadata.py]) *)

(** [to_v04]: keyword arguments are evaluated in the order they are
    written. *)
Definition to_v04 (self : loc) : M value :=
  axes ← getattr (VRef self) "axes";
  datasets ← getattr (VRef self) "datasets";
  coordinateTransformations ← getattr (VRef self) "coordinateTransformations";
  name ← getattr (VRef self) "name";
  metadata ← getattr (VRef self) "metadata";
  type ← getattr (VRef self) "type";
  omero ← getattr (VRef self) "omero";
  Metadata_v04_init axes datasets coordinateTransformations omero name type
    metadata.

(** [to_version]: a call that leaves the [if]/[elif] without a [return]
    returns [None]. *)
Definition to_version (self : loc) (version : string) : M value :=
  if negb (py_in version SUPPORTED_VERSIONS)
  then raise (ValueError ("Unsupported version conversion: 0.5 -> " ++ version))
  else if String.eqb version "0.5" then mret (VRef self)
  else if String.eqb version "0.4" then to_v04 self
  else mret VNone.

(** [from_v04], a classmethod, at [cls = Metadata]. *)
Definition from_v04 (metadata_v04 : value) : M value :=
  axes ← getattr metadata_v04 "axes";
  datasets ← getattr metadata_v04 "datasets";
  coordinateTransformations ← getattr metadata_v04 "coordinateTransformations";
  name ← getattr metadata_v04 "name";
  metadata ← getattr metadata_v04 "metadata";
  type ← getattr metadata_v04 "type";
  omero ← getattr metadata_v04 "omero";
  Metadata_init axes datasets coordinateTransformations omero name type
    metadata.

(** [from_version], a classmethod, at [cls = Metadata]. *)
Definition from_version (metadata : value) : M value :=
  is_v04 ← isinstance metadata Metadata_v04;
  if is_v04 : bool then from_v04 metadata
  else λ h,
    raise (ValueError ("Unsupported metadata type: "
                       ++ class_repr (type_of h metadata))) h.

(** The property [dimension_names]. *)
Fixpoint names_of (axes : list value) : M (list value) :=
  match axes with
  | [] => mret []
  | ax :: rest =>
      n ← getattr ax "name";
      ns ← names_of rest;
      mret (n :: ns)
  end.

Definition dimension_names (self : loc) : M value :=
  axes ← getattr (VRef self) "axes";
  items ← iterate axes;
  names ← names_of items;
  mret (VTuple names).

(** ** Well-formed records *)

(** A dataclass instance carries each of its seven fields: the generated
    [__init__] sets them all. *)
Definition has_fields (o : object) : Prop :=
  Forall (λ f, is_Some (obj_attrs o !! f)) FIELDS.

(** [record_at h l c o]: address [l] of the store [h] holds the record [o],
    an instance of the dataclass [c]. *)
Definition record_at (h : heap) (l : loc) (c : class) (o : object) : Prop :=
  h !! l = Some o ∧ obj_class o = c ∧ has_fields o.

(** What a caller may pass where any object is accepted: a builtin value,
    or a reference to an allocated object that, when it is an instance of
    one of the two dataclasses, carries the seven fields. *)
Definition wf_value (h : heap) (v : value) : Prop :=
  match v with
  | VRef l =>
      match h !! l with
      | Some o => obj_class o = Metadata_v04 ∨ obj_class o = Metadata →
                  has_fields o
      | None => False
      end
  | _ => True
  end.

(** The value of field [f] of [o] ([None] stands in for a missing one). *)
Definition field (o : object) (f : string) : value :=
  default VNone (obj_attrs o !! f).

(** The attribute map both converters build from the record they read. *)
Definition copied_attrs (o : object) : gmap string value :=
  record_attrs (field o "axes") (field o "datasets")
    (field o "coordinateTransformations") (field o "omero") (field o "name")
    (field o "type") (field o "metadata").

(** [name_of h ax n]: [ax] is an object of the store whose [name] is [n]. *)
Definition name_of (h : heap) (ax n : value) : Prop :=
  ∃ l o, ax = VRef l ∧ h !! l = Some o ∧ obj_attrs o !! "name" = Some n.

(** [raises r]: the run [r] ended in an exception. *)
Definition raises {A} (r : result A * heap) : Prop :=
  ∃ e, r.1 = Raise e.

(** ** Store invariants *)

(** Every instance of one of the two dataclasses in the store carries the
    seven fields. *)
Definition wf_heap (h : heap) : Prop :=
  ∀ l o, h !! l = Some o →
         obj_class o = Metadata_v04 ∨ obj_class o = Metadata → has_fields o.

(** [preserves h r]: the run [r], started in [h], left every object of [h]
    where and as it was, allocated at most one object, and allocated none
    if it raised. *)
Definition preserves {A} (h : heap) (r : result A * heap) : Prop :=
  (∀ l o, h !! l = Some o → r.2 !! l = Some o) ∧
  (List.length r.2 ≤ S (List.length h))%nat ∧
  (raises r → r.2 = h).

(** The order in which [to_v04] and [from_v04] read the fields: that of the
    keywords in the constructor call. *)
Definition READ_ORDER : list string :=
  ["axes"; "datasets"; "coordinateTransformations"; "name"; "metadata";
   "type"; "omero"].

(** [unnamed h ax]: [ax] is not an object of the store with a [name]. *)
Definition unnamed (h : heap) (ax : value) : Prop :=
  ∀ n, ¬ name_of h ax n.

(** ** A sample store

    Three axes named z, y, x (an axis being, in the spec's glossary, a
    descriptor with a name, a type and a unit), a 0.5 record over them with
    the other fields at their defaults, and a 0.4 record named "sample"
    over the axes y and x. *)

Definition Axis : class := UserClass "ngff_zarr.v04.zarr_metadata" "Axis".

Definition axis_object (n : string) : object :=
  Object Axis
    (<["name" := VStr n]> (<["type" := VStr "space"]> (<["unit" := VNone]> ∅))).

Definition sample_v05 : object :=
  Object Metadata
    (record_attrs (VList [VRef 0; VRef 1; VRef 2]) (VList []) VNone VNone
       (VStr "image") VNone VNone).

Definition sample_v04 : object :=
  Object Metadata_v04
    (record_attrs (VList [VRef 1; VRef 2]) (VList []) VNone VNone
       (VStr "sample") VNone VNone).

Definition sample_heap : heap :=
  [axis_object "z"; axis_object "y"; axis_object "x"; sample_v05; sample_v04].

(** A second store: the first one followed by a 0.5 record whose [axes]
    mixes an axis object with a plain string ... *)
Definition sample_strings_v05 : object :=
  Object Metadata
    (record_attrs (VList [VRef 0; VStr "y"]) (VList []) VNone VNone
       (VStr "image") VNone VNone).

(** ... and by an object of another class that has [axes] and [datasets]
    and nothing else. *)
Definition sample_partial : object :=
  Object (UserClass "types" "SimpleNamespace")
    (<["axes" := VList []]> (<["datasets" := VList []]> ∅)).

Definition sample_heap_strings : heap :=
  (sample_heap ++ [sample_strings_v05; sample_partial])%list.

(** ** Running the monad *)

Lemma bind_Return {A B} (m : M A) (f : A → M B) h a h' :
  m h = (Return a, h') → (m ≫= f) h = f a h'.
Proof. intros Hm. unfold mbind, M_bind. by rewrite Hm. Qed.

Lemma bind_Raise {A B} (m : M A) (f : A → M B) h e h' :
  m h = (Raise e, h') → (m ≫= f) h = (Raise e, h').
Proof. intros Hm. unfold mbind, M_bind. by rewrite Hm. Qed.

Lemma getattr_field h l o f x :
  h !! l = Some o → obj_attrs o !! f = Some x →
  getattr (VRef l) f h = (Return x, h).
Proof. intros Hl Hf. unfold getattr. by rewrite Hl, Hf. Qed.

Lemma getattr_has_field h l o f :
  h !! l = Some o → has_fields o → f ∈ FIELDS →
  getattr (VRef l) f h = (Return (field o f), h).
Proof.
  intros Hl Ho Hf. unfold has_fields in Ho.
  rewrite Forall_forall in Ho. destruct (Ho f Hf) as [x Hx].
  unfold field. rewrite Hx. simpl. by apply getattr_field with o.
Qed.

Lemma elem_of_FIELDS f :
  f ∈ FIELDS ↔
  f = "axes" ∨ f = "datasets" ∨ f = "coordinateTransformations" ∨
  f = "omero" ∨ f = "name" ∨ f = "type" ∨ f = "metadata".
Proof. unfold FIELDS. rewrite !elem_of_cons, elem_of_nil. tauto. Qed.

Ltac field_in := apply elem_of_FIELDS; tauto.

(** ** The attribute map of a converted record *)

Lemma copied_attrs_lookup o f :
  has_fields o → f ∈ FIELDS → copied_attrs o !! f = obj_attrs o !! f.
Proof.
  intros Ho Hf. unfold has_fields in Ho. rewrite Forall_forall in Ho.
  destruct (Ho f Hf) as [x Hx]. rewrite Hx.
  apply elem_of_FIELDS in Hf.
  unfold copied_attrs, record_attrs, field.
  destruct Hf as [->|[->|[->|[->|[->|[->| ->]]]]]];
    rewrite Hx; reflexivity.
Qed.

Lemma copied_attrs_dom o : dom (copied_attrs o) = list_to_set FIELDS.
Proof.
  unfold copied_attrs, record_attrs. rewrite !dom_insert_L. set_solver.
Qed.

Lemma copied_attrs_outside o f : f ∉ FIELDS → copied_attrs o !! f = None.
Proof.
  intros Hf. apply not_elem_of_dom. rewrite copied_attrs_dom.
  by rewrite elem_of_list_to_set.
Qed.

(** A record with no attribute besides the seven fields is copied whole. *)
Lemma copied_attrs_exact o :
  has_fields o → dom (obj_attrs o) = list_to_set FIELDS →
  copied_attrs o = obj_attrs o.
Proof.
  intros Ho Hdom. apply map_eq. intros f.
  destruct (decide (f ∈ FIELDS)) as [Hf|Hf].
  - by apply copied_attrs_lookup.
  - rewrite copied_attrs_outside by done. symmetry.
    apply not_elem_of_dom. rewrite Hdom. by rewrite elem_of_list_to_set.
Qed.

(** ** The two converters run *)

Lemma from_v04_run h l o :
  h !! l = Some o → has_fields o →
  from_v04 (VRef l) h
  = (Return (VRef (List.length h)), (h ++ [Object Metadata (copied_attrs o)])%list).
Proof.
  intros Hl Ho. unfold from_v04.
  do 7 (erewrite bind_Return;
        [| apply (getattr_has_field h l o); [done | done | field_in]]).
  reflexivity.
Qed.

Lemma to_v04_run h self o :
  h !! self = Some o → has_fields o →
  to_v04 self h
  = (Return (VRef (List.length h)),
     (h ++ [Object Metadata_v04 (copied_attrs o)])%list).
Proof.
  intros Hl Ho. unfold to_v04.
  do 7 (erewrite bind_Return;
        [| apply (getattr_has_field h self o); [done | done | field_in]]).
  reflexivity.
Qed.

Lemma has_fields_copied o : has_fields o → has_fields (Object Metadata (copied_attrs o)).
Proof.
  intros Ho. unfold has_fields. rewrite Forall_forall. intros f Hf. simpl.
  rewrite copied_attrs_lookup by done.
  unfold has_fields in Ho. rewrite Forall_forall in Ho. by apply Ho.
Qed.

Lemma py_in_elem_of x l : py_in x l = true ↔ x ∈ l.
Proof.
  unfold py_in. rewrite existsb_exists. split.
  - intros (y & Hy & Heq). apply String.eqb_eq in Heq. subst.
    by apply list_elem_of_In.
  - intros Hx. exists x. split; [by apply list_elem_of_In | apply String.eqb_refl].
Qed.

Lemma has_fields_record_attrs c a d t o n ty m :
  has_fields (Object c (record_attrs a d t o n ty m)).
Proof. unfold has_fields, FIELDS. repeat constructor; by eexists. Qed.

Lemma sample_v05_at : record_at sample_heap 3 Metadata sample_v05.
Proof. repeat split. apply has_fields_record_attrs. Qed.

Lemma sample_v04_at : record_at sample_heap 4 Metadata_v04 sample_v04.
Proof. repeat split. apply has_fields_record_attrs. Qed.

(** The guard that opens [to_version]. *)
Lemma to_version_guard h self version :
  version ∉ SUPPORTED_VERSIONS →
  to_version self version h
  = (Raise (ValueError ("Unsupported version conversion: 0.5 -> " ++ version)),
     h).
Proof.
  intros Hv. unfold to_version.
  destruct (py_in version SUPPORTED_VERSIONS) eqn:Hin; [| reflexivity].
  apply py_in_elem_of in Hin. contradiction.
Qed.

Lemma latest_not_supported : "latest" ∉ SUPPORTED_VERSIONS.
Proof.
  unfold SUPPORTED_VERSIONS. rewrite !elem_of_cons, elem_of_nil.
  intros [?|[?|[?|[]]]]; discriminate.
Qed.

(** The two branches of [from_version]. *)
Lemma from_version_v04 h metadata :
  type_of h metadata = Metadata_v04 →
  from_version metadata h = from_v04 metadata h.
Proof.
  intros Hc. unfold from_version, isinstance, mbind, M_bind.
  by rewrite bool_decide_eq_true_2.
Qed.

Lemma from_version_other h metadata :
  type_of h metadata ≠ Metadata_v04 →
  from_version metadata h
  = (Raise (ValueError ("Unsupported metadata type: "
                        ++ class_repr (type_of h metadata))), h).
Proof.
  intros Hc. unfold from_version, isinstance, mbind, M_bind.
  by rewrite bool_decide_eq_false_2.
Qed.

(** The comprehension of [dimension_names], run over axes that all have a
    name. *)
Lemma names_of_run h axes names :
  Forall2 (name_of h) axes names → names_of axes h = (Return names, h).
Proof.
  induction 1 as [| ax n axes names (l & o & -> & Hl & Hn) _ IH];
    [reflexivity |].
  simpl. erewrite bind_Return; [| by apply getattr_field with o].
  erewrite bind_Return; [| exact IH]. reflexivity.
Qed.

(** * The version registry *)

(** C9: the alias table sends "latest" to "0.6", the newest supported
    version, and every supported version to itself; it has no other key; and
    the supported versions are "0.4", "0.5", "0.6" in that order. *)
Theorem VERSION_ALIASES_canonical :
  VERSION_ALIASES !! "latest" = Some "0.6" ∧
  VERSION_ALIASES !! "0.5" = Some "0.5" ∧
  (∀ v, v ∈ SUPPORTED_VERSIONS → VERSION_ALIASES !! v = Some v) ∧
  dom VERSION_ALIASES = list_to_set SUPPORTED_VERSIONS ∪ {["latest"]} ∧
  SUPPORTED_VERSIONS = ["0.4"; "0.5"; "0.6"] ∧
  last SUPPORTED_VERSIONS = VERSION_ALIASES !! "latest".
Proof.
  split_and!; try reflexivity.
  intros v Hv. unfold SUPPORTED_VERSIONS in Hv.
  rewrite !elem_of_cons, elem_of_nil in Hv.
  destruct Hv as [->|[->|[->|[]]]]; reflexivity.
Qed.

(** * [to_version] *)

(** C1: asked for "0.6", a supported version, [to_version] leaves its
    [if]/[elif] chain without a [return]: the caller gets [None], not a
    record, and the store is as it was. *)
Theorem to_version_06_returns_None (h : heap) (self : loc) :
  to_version self "0.6" h = (Return VNone, h).
Proof. reflexivity. Qed.

(** C2: for a version outside the supported set, [to_version] raises the
    [ValueError] whose message names the transition from 0.5 to that
    version, and allocates nothing. *)
Theorem to_version_unsupported (h : heap) (self : loc) (version : string) :
  version ∉ SUPPORTED_VERSIONS →
  to_version self version h
  = (Raise (ValueError ("Unsupported version conversion: 0.5 -> " ++ version)),
     h).
Proof. apply to_version_guard. Qed.

Lemma to_version_unsupported_witness :
  to_version 3 "0.7" sample_heap
  = (Raise (ValueError "Unsupported version conversion: 0.5 -> 0.7"),
     sample_heap).
Proof.
  apply (to_version_unsupported sample_heap 3 "0.7").
  unfold SUPPORTED_VERSIONS. rewrite !elem_of_cons, elem_of_nil.
  intros [?|[?|[?|[]]]]; discriminate.
Defined.

(** C6: asked for "0.5", [to_version] returns the reference it was called
    on, the receiver itself, and the store is untouched: no object is
    created. *)
Theorem to_version_05_identity (h : heap) (self : loc) :
  to_version self "0.5" h = (Return (VRef self), h).
Proof. reflexivity. Qed.

(** C3, as the code has it: [to_version] compares the string it is given
    with the supported versions and resolves no alias.  On a 0.5 record it
    raises exactly for the strings outside "0.4", "0.5", "0.6"; "latest" is
    one of them, and is rejected with the error that names it. *)
Theorem to_version_resolves_no_alias
    (h : heap) (self : loc) (o : object) (version : string) :
  record_at h self Metadata o →
  (raises (to_version self version h) ↔ version ∉ SUPPORTED_VERSIONS) ∧
  ("latest" ∉ SUPPORTED_VERSIONS) ∧
  to_version self "latest" h
  = (Raise (ValueError "Unsupported version conversion: 0.5 -> latest"), h).
Proof.
  intros (Hl & _ & Ho). split_and!;
    [| apply latest_not_supported | reflexivity].
  split.
  - intros [e He] Hin. unfold SUPPORTED_VERSIONS in Hin.
    rewrite !elem_of_cons, elem_of_nil in Hin.
    destruct Hin as [->|[->|[->|[]]]].
    + unfold to_version in He. simpl in He.
      rewrite (to_v04_run h self o Hl Ho) in He. discriminate.
    + discriminate.
    + discriminate.
  - intros Hv. rewrite to_version_guard by done. by eexists.
Qed.

Lemma to_version_resolves_no_alias_witness :
  (raises (to_version 3 "latest" sample_heap)
   ↔ "latest" ∉ SUPPORTED_VERSIONS) ∧
  ("latest" ∉ SUPPORTED_VERSIONS) ∧
  to_version 3 "latest" sample_heap
  = (Raise (ValueError "Unsupported version conversion: 0.5 -> latest"),
     sample_heap).
Proof.
  apply (to_version_resolves_no_alias sample_heap 3 sample_v05 "latest").
  apply sample_v05_at.
Defined.

(** C3, as the spec has it, fails on the sample record: [to_version]
    raises on "latest", and does not do what it does on "0.6". *)
Lemma to_version_latest_raises :
  raises (to_version 3 "latest" sample_heap) ∧
  to_version 3 "latest" sample_heap ≠ to_version 3 "0.6" sample_heap.
Proof. split; [by eexists | discriminate]. Qed.

(** * [to_v04] and [from_v04] *)

(** C5: on a 0.5 record [to_v04] cannot fail.  It allocates one object, at
    an address that was free, and returns it: an instance of the 0.4 class
    whose attributes are the seven fields and nothing else, each holding
    what the receiver holds; the receiver stays as it was. *)
Theorem to_v04_total (h : heap) (self : loc) (o : object) :
  record_at h self Metadata o →
  ∃ l' o',
    to_v04 self h = (Return (VRef l'), (h ++ [o'])%list) ∧
    h !! l' = None ∧
    (h ++ [o'])%list !! l' = Some o' ∧
    (h ++ [o'])%list !! self = Some o ∧
    obj_class o' = Metadata_v04 ∧
    dom (obj_attrs o') = list_to_set FIELDS ∧
    ∀ f, f ∈ FIELDS → obj_attrs o' !! f = obj_attrs o !! f.
Proof.
  intros (Hl & _ & Ho).
  exists (List.length h), (Object Metadata_v04 (copied_attrs o)).
  split_and!.
  - by apply to_v04_run.
  - by apply lookup_ge_None_2.
  - apply list_lookup_middle. reflexivity.
  - by apply lookup_app_l_Some.
  - reflexivity.
  - apply copied_attrs_dom.
  - intros f Hf. by apply copied_attrs_lookup.
Qed.

Lemma to_v04_total_witness :
  ∃ l' o',
    to_v04 3 sample_heap = (Return (VRef l'), (sample_heap ++ [o'])%list) ∧
    sample_heap !! l' = None ∧
    (sample_heap ++ [o'])%list !! l' = Some o' ∧
    (sample_heap ++ [o'])%list !! 3 = Some sample_v05 ∧
    obj_class o' = Metadata_v04 ∧
    dom (obj_attrs o') = list_to_set FIELDS ∧
    ∀ f, f ∈ FIELDS → obj_attrs o' !! f = obj_attrs sample_v05 !! f.
Proof. apply (to_v04_total sample_heap 3 sample_v05). apply sample_v05_at. Defined.

(** C4: from a 0.4 record, [from_v04] followed by [to_v04] on its result
    ends with a 0.4 record that agrees with the first on each of the seven
    fields, and equals it when the first has no attribute besides them; the
    first record is still in place. *)
Theorem from_v04_to_v04_round_trip (h : heap) (l : loc) (m04 : object) :
  record_at h l Metadata_v04 m04 →
  ∃ l05 h1 l04 h2 m04',
    from_v04 (VRef l) h = (Return (VRef l05), h1) ∧
    to_v04 l05 h1 = (Return (VRef l04), h2) ∧
    h2 !! l04 = Some m04' ∧
    h2 !! l = Some m04 ∧
    obj_class m04' = Metadata_v04 ∧
    (∀ f, f ∈ FIELDS → obj_attrs m04' !! f = obj_attrs m04 !! f) ∧
    (dom (obj_attrs m04) = list_to_set FIELDS → m04' = m04).
Proof.
  intros (Hl & Hc & Ho).
  set (m05 := Object Metadata (copied_attrs m04)).
  set (h1 := (h ++ [m05])%list).
  set (m04' := Object Metadata_v04 (copied_attrs m05)).
  exists (List.length h), h1, (List.length h1), (h1 ++ [m04'])%list, m04'.
  assert (Hm05 : h1 !! List.length h = Some m05)
    by (apply list_lookup_middle; reflexivity).
  assert (Ho5 : has_fields m05) by by apply has_fields_copied.
  split_and!.
  - by apply from_v04_run.
  - by apply to_v04_run.
  - apply list_lookup_middle. reflexivity.
  - apply lookup_app_l_Some. by apply lookup_app_l_Some.
  - reflexivity.
  - intros f Hf. simpl. rewrite copied_attrs_lookup by done.
    simpl. by apply copied_attrs_lookup.
  - intros Hdom. destruct m04 as [c attrs]. simpl in *. subst c.
    unfold m04'. f_equal.
    rewrite copied_attrs_exact; [| done | apply copied_attrs_dom].
    simpl. by apply copied_attrs_exact.
Qed.

Lemma from_v04_to_v04_round_trip_witness :
  ∃ l05 h1 l04 h2 m04',
    from_v04 (VRef 4) sample_heap = (Return (VRef l05), h1) ∧
    to_v04 l05 h1 = (Return (VRef l04), h2) ∧
    h2 !! l04 = Some m04' ∧
    h2 !! 4 = Some sample_v04 ∧
    obj_class m04' = Metadata_v04 ∧
    (∀ f, f ∈ FIELDS → obj_attrs m04' !! f = obj_attrs sample_v04 !! f) ∧
    (dom (obj_attrs sample_v04) = list_to_set FIELDS → m04' = sample_v04).
Proof.
  apply (from_v04_to_v04_round_trip sample_heap 4 sample_v04).
  apply sample_v04_at.
Defined.

(** C10: [from_v04] looks at nothing but the seven attributes of what it is
    given.  On any object that has them, whatever its class, a 0.5 record
    included, it raises nothing and returns a new 0.5 record holding the
    same seven values; when the object is not a 0.4 record, [from_version]
    refuses that same object with its [ValueError]. *)
Theorem from_v04_unchecked (h : heap) (l : loc) (o : object) :
  h !! l = Some o →
  has_fields o →
  ∃ o',
    from_v04 (VRef l) h
    = (Return (VRef (List.length h)), (h ++ [o'])%list) ∧
    h !! List.length h = None ∧
    obj_class o' = Metadata ∧
    (∀ f, f ∈ FIELDS → obj_attrs o' !! f = obj_attrs o !! f) ∧
    (obj_class o ≠ Metadata_v04 →
     from_version (VRef l) h
     = (Raise (ValueError ("Unsupported metadata type: "
                           ++ class_repr (obj_class o))), h)).
Proof.
  intros Hl Ho. exists (Object Metadata (copied_attrs o)). split_and!.
  - by apply from_v04_run.
  - by apply lookup_ge_None_2.
  - reflexivity.
  - intros f Hf. by apply copied_attrs_lookup.
  - intros Hc. rewrite from_version_other; simpl; rewrite Hl; done.
Qed.

Lemma from_v04_unchecked_witness :
  ∃ o',
    from_v04 (VRef 3) sample_heap
    = (Return (VRef 5), (sample_heap ++ [o'])%list) ∧
    sample_heap !! 5 = None ∧
    obj_class o' = Metadata ∧
    (∀ f, f ∈ FIELDS → obj_attrs o' !! f = obj_attrs sample_v05 !! f) ∧
    (obj_class sample_v05 ≠ Metadata_v04 →
     from_version (VRef 3) sample_heap
     = (Raise (ValueError ("Unsupported metadata type: "
                           ++ class_repr (obj_class sample_v05))),
        sample_heap)).
Proof.
  apply (from_v04_unchecked sample_heap 3 sample_v05).
  - reflexivity.
  - apply has_fields_record_attrs.
Defined.

(** * [from_version] *)

(** C7: [from_version] does what [from_v04] does, returning a new 0.5
    record that holds the seven field values of its argument, exactly when
    the argument is an instance of the 0.4 class; on anything else it
    raises the [ValueError] whose message names the type it met.  So it
    raises if and only if the argument is not a 0.4 record. *)
Theorem from_version_dispatch (h : heap) (metadata : value) :
  wf_value h metadata →
  (type_of h metadata = Metadata_v04 →
   from_version metadata h = from_v04 metadata h ∧
   ∃ l o o',
     metadata = VRef l ∧ h !! l = Some o ∧
     from_version metadata h
     = (Return (VRef (List.length h)), (h ++ [o'])%list) ∧
     h !! List.length h = None ∧
     obj_class o' = Metadata ∧
     ∀ f, f ∈ FIELDS → obj_attrs o' !! f = obj_attrs o !! f) ∧
  (type_of h metadata ≠ Metadata_v04 →
   from_version metadata h
   = (Raise (ValueError ("Unsupported metadata type: "
                         ++ class_repr (type_of h metadata))), h)) ∧
  (raises (from_version metadata h) ↔ type_of h metadata ≠ Metadata_v04).
Proof.
  intros Hwf.
  assert (Hv04 : type_of h metadata = Metadata_v04 →
                 ∃ l o, metadata = VRef l ∧ h !! l = Some o ∧
                        from_version metadata h
                        = (Return (VRef (List.length h)),
                           (h ++ [Object Metadata (copied_attrs o)])%list) ∧
                        has_fields o).
  { intros Hc. destruct metadata as [| | | | |l]; try discriminate.
    simpl in Hc, Hwf. destruct (h !! l) as [o|] eqn:Hl; [| done].
    exists l, o. split_and!; [done | done | | by auto].
    rewrite from_version_v04 by (simpl; by rewrite Hl).
    apply from_v04_run; by auto. }
  split_and!.
  - intros Hc. split; [by apply from_version_v04 |].
    destruct (Hv04 Hc) as (l & o & -> & Hl & Hrun & Ho).
    exists l, o, (Object Metadata (copied_attrs o)). split_and!; try done.
    + by apply lookup_ge_None_2.
    + intros f Hf. by apply copied_attrs_lookup.
  - apply from_version_other.
  - split.
    + intros [e He] Hc. destruct (Hv04 Hc) as (l & o & _ & _ & Hrun & _).
      rewrite Hrun in He. discriminate.
    + intros Hc. rewrite from_version_other by done. by eexists.
Qed.

Lemma from_version_dispatch_witness :
  (type_of sample_heap (VRef 4) = Metadata_v04 →
   from_version (VRef 4) sample_heap = from_v04 (VRef 4) sample_heap ∧
   ∃ l o o',
     VRef 4 = VRef l ∧ sample_heap !! l = Some o ∧
     from_version (VRef 4) sample_heap
     = (Return (VRef (List.length sample_heap)), (sample_heap ++ [o'])%list) ∧
     sample_heap !! List.length sample_heap = None ∧
     obj_class o' = Metadata ∧
     ∀ f, f ∈ FIELDS → obj_attrs o' !! f = obj_attrs o !! f) ∧
  (type_of sample_heap (VRef 4) ≠ Metadata_v04 →
   from_version (VRef 4) sample_heap
   = (Raise (ValueError ("Unsupported metadata type: "
                         ++ class_repr (type_of sample_heap (VRef 4)))),
      sample_heap)) ∧
  (raises (from_version (VRef 4) sample_heap)
   ↔ type_of sample_heap (VRef 4) ≠ Metadata_v04).
Proof.
  apply (from_version_dispatch sample_heap (VRef 4)).
  simpl. intros _. apply has_fields_record_attrs.
Defined.

(** * [dimension_names] *)

(** C8: on a 0.5 record whose [axes] is a list of objects that each have a
    name, [dimension_names] is the tuple of those names in the order of the
    axes, as long as the list of axes; it is the empty tuple when there is
    no axis; and reading it changes nothing in the store. *)
Theorem dimension_names_axes
    (h : heap) (self : loc) (o : object) (axes names : list value) :
  record_at h self Metadata o →
  obj_attrs o !! "axes" = Some (VList axes) →
  Forall2 (name_of h) axes names →
  dimension_names self h = (Return (VTuple names), h) ∧
  List.length names = List.length axes ∧
  (axes = [] → dimension_names self h = (Return (VTuple []), h)).
Proof.
  intros (Hl & _ & _) Haxes Hnames.
  assert (Hrun : dimension_names self h = (Return (VTuple names), h)).
  { unfold dimension_names.
    erewrite bind_Return; [| by apply getattr_field with o].
    erewrite bind_Return; [| reflexivity].
    erewrite bind_Return; [| by apply names_of_run]. reflexivity. }
  split_and!.
  - exact Hrun.
  - symmetry. by eapply Forall2_length.
  - intros ->. apply Forall2_nil_inv_l in Hnames. by subst.
Qed.

Lemma dimension_names_axes_witness :
  dimension_names 3 sample_heap
  = (Return (VTuple [VStr "z"; VStr "y"; VStr "x"]), sample_heap) ∧
  List.length [VStr "z"; VStr "y"; VStr "x"]
  = List.length [VRef 0; VRef 1; VRef 2] ∧
  ([VRef 0; VRef 1; VRef 2] = [] →
   dimension_names 3 sample_heap = (Return (VTuple []), sample_heap)).
Proof.
  apply (dimension_names_axes sample_heap 3 sample_v05
           [VRef 0; VRef 1; VRef 2] [VStr "z"; VStr "y"; VStr "x"]).
  - apply sample_v05_at.
  - reflexivity.
  - repeat constructor.
    + by exists 0, (axis_object "z").
    + by exists 1, (axis_object "y").
    + by exists 2, (axis_object "x").
Defined.

(** * Further properties of the conversions *)

(** ** How the converters read their argument *)

Lemma getattr_cases v f h :
  (∃ x, getattr v f h = (Return x, h)) ∨
  getattr v f h = (Raise (AttributeError f), h).
Proof.
  unfold getattr. destruct v; try (by right).
  destruct (h !! l) as [o|]; [| by right].
  destruct (obj_attrs o !! f); [left; by eexists | by right].
Qed.

Lemma has_fields_intro o a d t om n ty m :
  obj_attrs o !! "axes" = Some a →
  obj_attrs o !! "datasets" = Some d →
  obj_attrs o !! "coordinateTransformations" = Some t →
  obj_attrs o !! "omero" = Some om →
  obj_attrs o !! "name" = Some n →
  obj_attrs o !! "type" = Some ty →
  obj_attrs o !! "metadata" = Some m →
  has_fields o.
Proof.
  intros. unfold has_fields, FIELDS. repeat constructor; by eexists.
Qed.

Lemma has_fields_lookup o f : has_fields o → f ∈ FIELDS → is_Some (obj_attrs o !! f).
Proof. unfold has_fields. rewrite Forall_forall. auto. Qed.

Ltac run_reads Hl :=
  unfold from_v04, to_v04, mbind, M_bind, getattr;
  repeat (first [ rewrite Hl
                | match goal with
                  | H : obj_attrs _ !! _ = _ |- _ => rewrite H
                  end ];
          cbn beta iota zeta);
  reflexivity.

Ltac all_present :=
  unfold READ_ORDER; cbn [take];
  repeat (apply Forall_cons_2; [by eexists |]); apply Forall_nil_2.

(** The outcome of reading the seven fields off an object, for both
    converters: either all are there, or the run stops at the first one, in
    reading order, that is not. *)
Lemma read_fields_cases h l o :
  h !! l = Some o →
  has_fields o ∨
  ∃ pre f post,
    READ_ORDER = (pre ++ f :: post)%list ∧
    Forall (λ g, is_Some (obj_attrs o !! g)) pre ∧
    obj_attrs o !! f = None ∧
    from_v04 (VRef l) h = (Raise (AttributeError f), h) ∧
    to_v04 l h = (Raise (AttributeError f), h).
Proof.
  intros Hl.
  destruct (obj_attrs o !! "axes") as [a|] eqn:Ha; last first.
  { right. exists [], "axes", (tail READ_ORDER).
    split_and!; [done | constructor | done | run_reads Hl | run_reads Hl]. }
  destruct (obj_attrs o !! "datasets") as [d|] eqn:Hd; last first.
  { right. exists (take 1 READ_ORDER), "datasets", (drop 2 READ_ORDER).
    split_and!; [done | all_present | done
                | run_reads Hl | run_reads Hl]. }
  destruct (obj_attrs o !! "coordinateTransformations") as [t|] eqn:Ht;
    last first.
  { right. exists (take 2 READ_ORDER), "coordinateTransformations",
      (drop 3 READ_ORDER).
    split_and!; [done | all_present | done
                | run_reads Hl | run_reads Hl]. }
  destruct (obj_attrs o !! "name") as [n|] eqn:Hn; last first.
  { right. exists (take 3 READ_ORDER), "name", (drop 4 READ_ORDER).
    split_and!; [done | all_present | done
                | run_reads Hl | run_reads Hl]. }
  destruct (obj_attrs o !! "metadata") as [m|] eqn:Hm; last first.
  { right. exists (take 4 READ_ORDER), "metadata", (drop 5 READ_ORDER).
    split_and!; [done | all_present | done
                | run_reads Hl | run_reads Hl]. }
  destruct (obj_attrs o !! "type") as [ty|] eqn:Hty; last first.
  { right. exists (take 5 READ_ORDER), "type", (drop 6 READ_ORDER).
    split_and!; [done | all_present | done
                | run_reads Hl | run_reads Hl]. }
  destruct (obj_attrs o !! "omero") as [om|] eqn:Hom; last first.
  { right. exists (take 6 READ_ORDER), "omero", [].
    split_and!; [done | all_present | done
                | run_reads Hl | run_reads Hl]. }
  left. by eapply has_fields_intro.
Qed.

Lemma elem_of_READ_ORDER f : f ∈ READ_ORDER ↔ f ∈ FIELDS.
Proof.
  unfold READ_ORDER, FIELDS. rewrite !elem_of_cons, !elem_of_nil. tauto.
Qed.

Lemma elem_of_middle (pre post : list string) f : f ∈ (pre ++ f :: post)%list.
Proof. rewrite elem_of_app, elem_of_cons. auto. Qed.

(** What [from_v04] does on any value at all. *)
Lemma from_v04_cases h v :
  (∃ l o, v = VRef l ∧ h !! l = Some o ∧ has_fields o ∧
          from_v04 v h
          = (Return (VRef (List.length h)),
             (h ++ [Object Metadata (copied_attrs o)])%list)) ∨
  (∃ f, f ∈ FIELDS ∧ from_v04 v h = (Raise (AttributeError f), h) ∧
        ¬ ∃ l o, v = VRef l ∧ h !! l = Some o ∧ has_fields o).
Proof.
  assert (Hax : "axes" ∈ FIELDS) by field_in.
  destruct v as [| | | | |l];
    try (right; exists "axes"; split_and!;
         [done | reflexivity | intros (? & ? & [=] & _)]).
  destruct (h !! l) as [o|] eqn:Hl; last first.
  { right. exists "axes". split_and!; [done | |].
    - unfold from_v04, mbind, M_bind, getattr. by rewrite Hl.
    - intros (l' & o' & [= <-] & Hl' & _). congruence. }
  destruct (read_fields_cases h l o Hl)
    as [Ho | (pre & f & post & Hord & _ & Hf & Hrun & _)].
  - left. exists l, o. split_and!; try done. by apply from_v04_run.
  - right. exists f. split_and!; [| done |].
    + apply elem_of_READ_ORDER. rewrite Hord. apply elem_of_middle.
    + intros (l' & o' & [= <-] & Hl' & Ho').
      rewrite Hl in Hl'. injection Hl' as <-.
      destruct (has_fields_lookup o f Ho') as [x Hx]; [| congruence].
      apply elem_of_READ_ORDER. rewrite Hord. apply elem_of_middle.
Qed.

(** What [to_v04] does on any receiver at all. *)
Lemma to_v04_cases h self :
  (∃ o, h !! self = Some o ∧ has_fields o ∧
        to_v04 self h
        = (Return (VRef (List.length h)),
           (h ++ [Object Metadata_v04 (copied_attrs o)])%list)) ∨
  (∃ f, f ∈ FIELDS ∧ to_v04 self h = (Raise (AttributeError f), h)).
Proof.
  destruct (h !! self) as [o|] eqn:Hl; last first.
  { right. exists "axes". split; [field_in |].
    unfold to_v04, mbind, M_bind, getattr. by rewrite Hl. }
  destruct (read_fields_cases h self o Hl)
    as [Ho | (pre & f & post & Hord & _ & Hf & _ & Hrun)].
  - left. exists o. split_and!; try done. by apply to_v04_run.
  - right. exists f. split; [| done].
    apply elem_of_READ_ORDER. rewrite Hord. apply elem_of_middle.
Qed.

Lemma to_version_cases h self version :
  to_version self version h
  = (Raise (ValueError ("Unsupported version conversion: 0.5 -> " ++ version)),
     h) ∨
  to_version self version h = (Return (VRef self), h) ∨
  to_version self version h = to_v04 self h ∨
  to_version self version h = (Return VNone, h).
Proof.
  unfold to_version.
  destruct (negb (py_in version SUPPORTED_VERSIONS)); [by left |].
  destruct (version =? "0.5")%string; [by right; left |].
  destruct (version =? "0.4")%string; [by right; right; left |].
  by right; right; right.
Qed.

Lemma from_version_cases h metadata :
  from_version metadata h = from_v04 metadata h ∨
  from_version metadata h
  = (Raise (ValueError ("Unsupported metadata type: "
                        ++ class_repr (type_of h metadata))), h).
Proof.
  destruct (decide (type_of h metadata = Metadata_v04)).
  - left. by apply from_version_v04.
  - right. by apply from_version_other.
Qed.

(** ** The store under the conversions *)

Lemma preserves_same {A} h (r : result A * heap) : r.2 = h → preserves h r.
Proof.
  intros Hr. unfold preserves. rewrite Hr. split_and!; [done | lia | done].
Qed.

Lemma preserves_alloc {A} h (x : A) o :
  preserves h (Return x, (h ++ [o])%list).
Proof.
  unfold preserves. simpl. split_and!.
  - intros l o' Hl. by apply lookup_app_l_Some.
  - rewrite length_app. simpl. lia.
  - intros [e He]. discriminate.
Qed.

Lemma preserves_to_v04 h self : preserves h (to_v04 self h).
Proof.
  destruct (to_v04_cases h self) as [(o & _ & _ & ->) | (f & _ & ->)].
  - apply preserves_alloc.
  - by apply preserves_same.
Qed.

Lemma preserves_from_v04 h v : preserves h (from_v04 v h).
Proof.
  destruct (from_v04_cases h v)
    as [(l & o & _ & _ & _ & ->) | (f & _ & -> & _)].
  - apply preserves_alloc.
  - by apply preserves_same.
Qed.

(** X6: whatever they are given, [to_version], [to_v04], [from_v04] and
    [from_version] leave every object of the store where and as it was,
    allocate at most one object, and allocate none when they raise. *)
Theorem conversions_preserve_store
    (h : heap) (self : loc) (version : string) (v : value) :
  preserves h (to_version self version h) ∧
  preserves h (to_v04 self h) ∧
  preserves h (from_v04 v h) ∧
  preserves h (from_version v h).
Proof.
  split_and!.
  - destruct (to_version_cases h self version) as [-> | [-> | [-> | ->]]];
      try by apply preserves_same.
    apply preserves_to_v04.
  - apply preserves_to_v04.
  - apply preserves_from_v04.
  - destruct (from_version_cases h v) as [-> | ->].
    + apply preserves_from_v04.
    + by apply preserves_same.
Qed.

Lemma has_fields_copied_attrs c o : has_fields (Object c (copied_attrs o)).
Proof. unfold copied_attrs. apply has_fields_record_attrs. Qed.

Lemma wf_heap_alloc h c o :
  wf_heap h → wf_heap (h ++ [Object c (copied_attrs o)])%list.
Proof.
  intros Hwf l o' Hl Hc.
  apply lookup_app_Some in Hl as [Hl | [_ Hl]]; [by eapply Hwf |].
  apply list_lookup_singleton_Some in Hl as [_ <-].
  apply has_fields_copied_attrs.
Qed.

(** X12: the conversions keep the store well formed: if every instance of
    the two dataclasses had its seven fields before, every one has them
    after, the new record included, whatever the arguments were. *)
Theorem conversions_keep_wf_heap
    (h : heap) (self : loc) (version : string) (v : value) :
  wf_heap h →
  wf_heap (to_version self version h).2 ∧
  wf_heap (to_v04 self h).2 ∧
  wf_heap (from_v04 v h).2 ∧
  wf_heap (from_version v h).2.
Proof.
  intros Hwf.
  assert (Hto : wf_heap (to_v04 self h).2).
  { destruct (to_v04_cases h self) as [(o & _ & _ & ->) | (f & _ & ->)];
      [by apply wf_heap_alloc | done]. }
  assert (Hfrom : wf_heap (from_v04 v h).2).
  { destruct (from_v04_cases h v)
      as [(l & o & _ & _ & _ & ->) | (f & _ & -> & _)];
      [by apply wf_heap_alloc | done]. }
  split_and!; try done.
  - by destruct (to_version_cases h self version) as [-> | [-> | [-> | ->]]].
  - by destruct (from_version_cases h v) as [-> | ->].
Qed.

Lemma sample_heap_wf : wf_heap sample_heap.
Proof.
  intros l o Hl Hc.
  do 5 (destruct l as [|l]; [injection Hl as <-;
                              first [apply has_fields_record_attrs
                                    | by destruct Hc] |]).
  discriminate.
Qed.

Lemma conversions_keep_wf_heap_witness :
  wf_heap (to_version 3 "0.4" sample_heap).2 ∧
  wf_heap (to_v04 3 sample_heap).2 ∧
  wf_heap (from_v04 (VRef 4) sample_heap).2 ∧
  wf_heap (from_version (VRef 4) sample_heap).2.
Proof.
  apply (conversions_keep_wf_heap sample_heap 3 "0.4" (VRef 4)).
  apply sample_heap_wf.
Defined.

(** ** [from_v04] on arbitrary arguments *)

(** X1: [from_v04] raises exactly when its argument is not an object that
    has all seven fields; what it raises is then the [AttributeError] of one
    of the seven field names, and the store is left as it was. *)
Theorem from_v04_raises_iff (h : heap) (v : value) :
  (raises (from_v04 v h)
   ↔ ¬ ∃ l o, v = VRef l ∧ h !! l = Some o ∧ has_fields o) ∧
  (raises (from_v04 v h) →
   ∃ f, f ∈ FIELDS ∧ from_v04 v h = (Raise (AttributeError f), h)).
Proof.
  destruct (from_v04_cases h v)
    as [(l & o & -> & Hl & Ho & Hrun) | (f & Hf & Hrun & Hno)].
  - split.
    + split.
      * intros [e He]. rewrite Hrun in He. discriminate.
      * intros Hno. exfalso. apply Hno. by exists l, o.
    + intros [e He]. rewrite Hrun in He. discriminate.
  - split.
    + split; [done |]. intros _. rewrite Hrun. by eexists.
    + intros _. by exists f.
Qed.

Lemma first_missing_unique (o : object) pre f post pre' f' post' :
  (pre ++ f :: post)%list = (pre' ++ f' :: post')%list →
  Forall (λ g, is_Some (obj_attrs o !! g)) pre →
  obj_attrs o !! f = None →
  Forall (λ g, is_Some (obj_attrs o !! g)) pre' →
  obj_attrs o !! f' = None →
  f = f'.
Proof.
  revert pre'. induction pre as [|g pre IH]; intros [|g' pre'] Heq Hpre Hf Hpre' Hf'.
  - by injection Heq.
  - injection Heq as <- _. apply Forall_cons in Hpre' as [[x Hx] _]. congruence.
  - injection Heq as -> _. apply Forall_cons in Hpre as [[x Hx] _]. congruence.
  - injection Heq as _ Heq.
    apply Forall_cons in Hpre as [_ Hpre].
    apply Forall_cons in Hpre' as [_ Hpre'].
    by eapply IH.
Qed.

(** X2: when an object lacks some of the seven fields, both converters
    raise the [AttributeError] of the first missing one in the order in
    which the constructor call lists them: axes, datasets,
    coordinateTransformations, name, metadata, type, omero. *)
Theorem converters_report_first_missing_field
    (h : heap) (l : loc) (o : object) (pre : list string) (f : string)
    (post : list string) :
  h !! l = Some o →
  READ_ORDER = (pre ++ f :: post)%list →
  Forall (λ g, is_Some (obj_attrs o !! g)) pre →
  obj_attrs o !! f = None →
  from_v04 (VRef l) h = (Raise (AttributeError f), h) ∧
  to_v04 l h = (Raise (AttributeError f), h).
Proof.
  intros Hl Hord Hpre Hf.
  destruct (read_fields_cases h l o Hl)
    as [Ho | (pre' & f' & post' & Hord' & Hpre' & Hf' & Hfrom & Hto)].
  - destruct (has_fields_lookup o f Ho) as [x Hx]; [| congruence].
    apply elem_of_READ_ORDER. rewrite Hord. apply elem_of_middle.
  - assert (f = f') as <-; [| done].
    apply (first_missing_unique o pre f post pre' f' post');
      [congruence | done..].
Qed.

Lemma converters_report_first_missing_field_witness :
  from_v04 (VRef 6) sample_heap_strings
  = (Raise (AttributeError "coordinateTransformations"), sample_heap_strings) ∧
  to_v04 6 sample_heap_strings
  = (Raise (AttributeError "coordinateTransformations"), sample_heap_strings).
Proof.
  apply (converters_report_first_missing_field sample_heap_strings 6
           sample_partial ["axes"; "datasets"] "coordinateTransformations"
           ["name"; "metadata"; "type"; "omero"]).
  - reflexivity.
  - reflexivity.
  - repeat (apply Forall_cons_2; [by eexists |]). apply Forall_nil_2.
  - reflexivity.
Defined.

(** ** Composing the conversions *)

(** X3: [to_v04] keeps no cache: two calls on the same record return two
    different new objects, both different from the receiver, with the same
    class and the same attributes. *)
Theorem to_v04_twice_distinct (h : heap) (self : loc) (o : object) :
  record_at h self Metadata o →
  ∃ l1 l2 h2 o',
    (r1 ← to_v04 self; r2 ← to_v04 self; mret (r1, r2)) h
    = (Return (VRef l1, VRef l2), h2) ∧
    l1 ≠ l2 ∧ l1 ≠ self ∧ l2 ≠ self ∧
    h2 !! l1 = Some o' ∧ h2 !! l2 = Some o' ∧ h2 !! self = Some o ∧
    obj_class o' = Metadata_v04.
Proof.
  intros (Hl & _ & Ho).
  set (o' := Object Metadata_v04 (copied_attrs o)).
  set (h1 := (h ++ [o'])%list).
  assert (Hself : (self < List.length h)%nat) by by eapply lookup_lt_Some.
  assert (Hl1 : h1 !! self = Some o) by by apply lookup_app_l_Some.
  assert (Hlen : List.length h1 = S (List.length h)).
  { unfold h1. rewrite length_app. simpl. lia. }
  exists (List.length h), (List.length h1), (h1 ++ [o'])%list, o'.
  split_and!.
  - erewrite bind_Return; [| by apply to_v04_run].
    erewrite bind_Return; [| by apply to_v04_run]. reflexivity.
  - lia.
  - lia.
  - lia.
  - apply lookup_app_l_Some. apply list_lookup_middle. reflexivity.
  - apply list_lookup_middle. reflexivity.
  - by apply lookup_app_l_Some.
  - reflexivity.
Qed.

Lemma to_v04_twice_distinct_witness :
  ∃ l1 l2 h2 o',
    (r1 ← to_v04 3; r2 ← to_v04 3; mret (r1, r2)) sample_heap
    = (Return (VRef l1, VRef l2), h2) ∧
    l1 ≠ l2 ∧ l1 ≠ 3 ∧ l2 ≠ 3 ∧
    h2 !! l1 = Some o' ∧ h2 !! l2 = Some o' ∧ h2 !! 3 = Some sample_v05 ∧
    obj_class o' = Metadata_v04.
Proof.
  apply (to_v04_twice_distinct sample_heap 3 sample_v05). apply sample_v05_at.
Defined.

Lemma type_of_ref h (l : loc) o :
  h !! l = Some o → type_of h (VRef l) = obj_class o.
Proof. intros Hl. unfold type_of. by rewrite Hl. Qed.

Lemma to_version_04 h self : to_version self "0.4" h = to_v04 self h.
Proof. reflexivity. Qed.

Lemma to_version_04_from_version_run h self o :
  record_at h self Metadata o →
  ∃ h2 l, (to_version self "0.4" ≫= from_version) h = (Return (VRef l), h2).
Proof.
  intros (Hl & _ & Ho).
  assert (Hm04 : (h ++ [Object Metadata_v04 (copied_attrs o)])%list
                 !! List.length h
                 = Some (Object Metadata_v04 (copied_attrs o)))
    by (apply list_lookup_middle; reflexivity).
  eexists _, _.
  erewrite bind_Return; [| rewrite to_version_04; by apply to_v04_run].
  rewrite from_version_v04 by exact (type_of_ref _ _ _ Hm04).
  apply from_v04_run; [done | apply has_fields_copied_attrs].
Qed.

(** X4: the round trip that starts from a 0.5 record: [to_version("0.4")]
    followed by [from_version] on its result succeeds and ends with a new
    0.5 record, not the receiver, that agrees with the receiver on each of
    the seven fields, and equals it when the receiver has no attribute
    besides them. *)
Theorem to_version_04_from_version_round_trip
    (h : heap) (self : loc) (m05 : object) :
  record_at h self Metadata m05 →
  ∃ l04 h1 l05 h2 m05',
    to_version self "0.4" h = (Return (VRef l04), h1) ∧
    from_version (VRef l04) h1 = (Return (VRef l05), h2) ∧
    l05 ≠ self ∧
    h2 !! l05 = Some m05' ∧
    h2 !! self = Some m05 ∧
    obj_class m05' = Metadata ∧
    (∀ f, f ∈ FIELDS → obj_attrs m05' !! f = obj_attrs m05 !! f) ∧
    (dom (obj_attrs m05) = list_to_set FIELDS → m05' = m05).
Proof.
  intros (Hl & Hc & Ho).
  set (m04 := Object Metadata_v04 (copied_attrs m05)).
  set (h1 := (h ++ [m04])%list).
  set (m05' := Object Metadata (copied_attrs m04)).
  assert (Hm04 : h1 !! List.length h = Some m04)
    by (apply list_lookup_middle; reflexivity).
  assert (Ho4 : has_fields m04) by apply has_fields_copied_attrs.
  assert (Hself : (self < List.length h)%nat) by by eapply lookup_lt_Some.
  assert (Hlen : List.length h1 = S (List.length h)).
  { unfold h1. rewrite length_app. simpl. lia. }
  exists (List.length h), h1, (List.length h1), (h1 ++ [m05'])%list, m05'.
  split_and!.
  - rewrite to_version_04. by apply to_v04_run.
  - rewrite from_version_v04 by exact (type_of_ref _ _ _ Hm04).
    by apply from_v04_run.
  - lia.
  - apply list_lookup_middle. reflexivity.
  - apply lookup_app_l_Some. by apply lookup_app_l_Some.
  - reflexivity.
  - intros f Hf. simpl. rewrite copied_attrs_lookup by done.
    simpl. by apply copied_attrs_lookup.
  - intros Hdom. destruct m05 as [c attrs]. simpl in *. subst c.
    unfold m05'. f_equal.
    rewrite copied_attrs_exact; [| done | apply copied_attrs_dom].
    simpl. by apply copied_attrs_exact.
Qed.

Lemma to_version_04_from_version_round_trip_witness :
  ∃ l04 h1 l05 h2 m05',
    to_version 3 "0.4" sample_heap = (Return (VRef l04), h1) ∧
    from_version (VRef l04) h1 = (Return (VRef l05), h2) ∧
    l05 ≠ 3 ∧
    h2 !! l05 = Some m05' ∧
    h2 !! 3 = Some sample_v05 ∧
    obj_class m05' = Metadata ∧
    (∀ f, f ∈ FIELDS → obj_attrs m05' !! f = obj_attrs sample_v05 !! f) ∧
    (dom (obj_attrs sample_v05) = list_to_set FIELDS → m05' = sample_v05).
Proof.
  apply (to_version_04_from_version_round_trip sample_heap 3 sample_v05).
  apply sample_v05_at.
Defined.

(** X5: of the three supported targets, only "0.4" gives something that
    [from_version] takes back.  After [to_version("0.5")] it is handed the
    0.5 record itself and raises the [ValueError] naming the 0.5 class;
    after [to_version("0.6")] it is handed [None] and raises the one naming
    [NoneType]; in both cases nothing was allocated. *)
Theorem from_version_after_to_version
    (h : heap) (self : loc) (o : object) (version : string) :
  record_at h self Metadata o →
  version ∈ SUPPORTED_VERSIONS →
  (raises ((to_version self version ≫= from_version) h) ↔ version ≠ "0.4") ∧
  (version = "0.5" →
   (to_version self version ≫= from_version) h
   = (Raise (ValueError "Unsupported metadata type: <class 'ngff_zarr.v05.zarr_metadata.Metadata'>"),
      h)) ∧
  (version = "0.6" →
   (to_version self version ≫= from_version) h
   = (Raise (ValueError "Unsupported metadata type: <class 'NoneType'>"), h)).
Proof.
  intros Hrec Hv.
  assert (H05 : (to_version self "0.5" ≫= from_version) h
                = (Raise (ValueError "Unsupported metadata type: <class 'ngff_zarr.v05.zarr_metadata.Metadata'>"),
                   h)).
  { destruct Hrec as (Hl & Hc & _).
    erewrite bind_Return; [| reflexivity].
    rewrite from_version_other; simpl; rewrite Hl, Hc; done. }
  assert (H06 : (to_version self "0.6" ≫= from_version) h
                = (Raise (ValueError "Unsupported metadata type: <class 'NoneType'>"), h)).
  { erewrite bind_Return; [| reflexivity]. by rewrite from_version_other. }
  split_and!; [| by intros -> | by intros ->].
  unfold SUPPORTED_VERSIONS in Hv. rewrite !elem_of_cons, elem_of_nil in Hv.
  destruct Hv as [->|[->|[->|[]]]].
  - split; [| done]. intros [e He] _.
    destruct (to_version_04_from_version_run h self o Hrec) as (h2 & l & Hrun).
    rewrite Hrun in He. discriminate.
  - split; [done |]. intros _. rewrite H05. by eexists.
  - split; [done |]. intros _. rewrite H06. by eexists.
Qed.

Lemma from_version_after_to_version_witness :
  (raises ((to_version 3 "0.6" ≫= from_version) sample_heap) ↔ "0.6" ≠ "0.4") ∧
  ("0.6" = "0.5" →
   (to_version 3 "0.6" ≫= from_version) sample_heap
   = (Raise (ValueError "Unsupported metadata type: <class 'ngff_zarr.v05.zarr_metadata.Metadata'>"),
      sample_heap)) ∧
  ("0.6" = "0.6" →
   (to_version 3 "0.6" ≫= from_version) sample_heap
   = (Raise (ValueError "Unsupported metadata type: <class 'NoneType'>"),
      sample_heap)).
Proof.
  apply (from_version_after_to_version sample_heap 3 sample_v05 "0.6").
  - apply sample_v05_at.
  - unfold SUPPORTED_VERSIONS. rewrite !elem_of_cons. auto.
Defined.

(** ** [dimension_names] on arbitrary records *)

Lemma getattr_Return_name_of h ax n h' :
  getattr ax "name" h = (Return n, h') → name_of h ax n.
Proof.
  unfold getattr. destruct ax as [| | | | |l]; try discriminate.
  destruct (h !! l) as [o|] eqn:Hl; [| discriminate].
  destruct (obj_attrs o !! "name") as [x|] eqn:Hx; [| discriminate].
  intros [= <- _]. by exists l, o.
Qed.

(** The comprehension either names every axis or stops at one without a
    name; it never touches the store. *)
Lemma names_of_cases h axes :
  (∃ names, names_of axes h = (Return names, h) ∧
            Forall2 (name_of h) axes names) ∨
  (names_of axes h = (Raise (AttributeError "name"), h) ∧
   Exists (unnamed h) axes).
Proof.
  induction axes as [|ax axes IH].
  - left. exists []. split; [reflexivity | constructor].
  - simpl. destruct (getattr_cases ax "name" h) as [[n Hn] | Hn].
    + pose proof (getattr_Return_name_of _ _ _ _ Hn) as Hax.
      erewrite bind_Return; [| exact Hn].
      destruct IH as [(names & Hrun & Hall) | [Hrun Hex]].
      * left. exists (n :: names). split; [| by constructor].
        erewrite bind_Return; [| exact Hrun]. reflexivity.
      * right. split; [| by apply Exists_cons_tl].
        erewrite bind_Raise; [| exact Hrun]. reflexivity.
    + right. split; [by erewrite bind_Raise |].
      apply Exists_cons_hd. intros n (l & o & -> & Hl & Hx).
      rewrite (getattr_field h l o "name" n Hl Hx) in Hn. discriminate.
Qed.

Lemma named_not_unnamed h axes names :
  Forall2 (name_of h) axes names → ¬ Exists (unnamed h) axes.
Proof.
  induction 1 as [|ax n axes names Hax _ IH]; intros Hex.
  - by apply Exists_nil in Hex.
  - apply Exists_cons in Hex as [Hex | Hex]; [by apply (Hex n) | by apply IH].
Qed.

(** X7: reading [dimension_names] never changes the store, whatever the
    receiver is and whether or not the read succeeds. *)
Theorem dimension_names_pure (h : heap) (self : loc) :
  (dimension_names self h).2 = h.
Proof.
  unfold dimension_names.
  destruct (getattr_cases (VRef self) "axes" h) as [[axes Ha] | Ha];
    [| by erewrite bind_Raise].
  erewrite bind_Return; [| exact Ha].
  assert (Hit : (∃ items, iterate axes h = (Return items, h)) ∨
                (∃ e, iterate axes h = (Raise e, h))).
  { unfold iterate. destruct axes; eauto. }
  destruct Hit as [[items Hit] | [e Hit]]; [| by erewrite bind_Raise].
  erewrite bind_Return; [| exact Hit].
  destruct (names_of_cases h items) as [(names & Hrun & _) | [Hrun _]].
  - by erewrite bind_Return.
  - by erewrite bind_Raise.
Qed.

(** X8: on a record whose [axes] is a list, [dimension_names] raises
    exactly when some entry is not an object with a [name] (a plain string
    in place of an axis, say); it then raises the [AttributeError] for
    [name] and returns no partial tuple. *)
Theorem dimension_names_unnamed_axis
    (h : heap) (self : loc) (o : object) (axes : list value) :
  h !! self = Some o →
  obj_attrs o !! "axes" = Some (VList axes) →
  (raises (dimension_names self h) ↔ Exists (unnamed h) axes) ∧
  (Exists (unnamed h) axes →
   dimension_names self h = (Raise (AttributeError "name"), h)).
Proof.
  intros Hl Haxes.
  assert (Hrun : dimension_names self h
                 = (names ← names_of axes; mret (VTuple names)) h).
  { unfold dimension_names.
    erewrite bind_Return; [| by apply getattr_field with o].
    erewrite bind_Return; [| reflexivity]. reflexivity. }
  rewrite Hrun.
  destruct (names_of_cases h axes) as [(names & Hn & Hall) | [Hn Hex]].
  - erewrite bind_Return; [| exact Hn].
    pose proof (named_not_unnamed _ _ _ Hall) as Hno.
    split; [split |]; [by intros [e He] | by intros Hex | by intros Hex].
  - erewrite bind_Raise; [| exact Hn].
    split; [split |]; [done | by eexists | done].
Qed.

Lemma dimension_names_unnamed_axis_witness :
  (raises (dimension_names 5 sample_heap_strings)
   ↔ Exists (unnamed sample_heap_strings) [VRef 0; VStr "y"]) ∧
  (Exists (unnamed sample_heap_strings) [VRef 0; VStr "y"] →
   dimension_names 5 sample_heap_strings
   = (Raise (AttributeError "name"), sample_heap_strings)).
Proof.
  apply (dimension_names_unnamed_axis sample_heap_strings 5
           sample_strings_v05 [VRef 0; VStr "y"]).
  - reflexivity.
  - reflexivity.
Defined.

Lemma name_of_app h ext ax n : name_of h ax n → name_of (h ++ ext)%list ax n.
Proof.
  intros (l & o & -> & Hl & Hn). exists l, o.
  split_and!; [done | by apply lookup_app_l_Some | done].
Qed.

Lemma dimension_names_run h self o axes names :
  h !! self = Some o →
  obj_attrs o !! "axes" = Some (VList axes) →
  Forall2 (name_of h) axes names →
  dimension_names self h = (Return (VTuple names), h).
Proof.
  intros Hl Haxes Hnames. unfold dimension_names.
  erewrite bind_Return; [| by apply getattr_field with o].
  erewrite bind_Return; [| reflexivity].
  erewrite bind_Return; [| by apply names_of_run]. reflexivity.
Qed.

(** X9: a conversion round trip keeps the dimension names: after [to_v04]
    and [from_v04] on its result, the new 0.5 record has the same
    [dimension_names] as the record the trip started from, which still has
    them too. *)
Theorem dimension_names_round_trip
    (h : heap) (self : loc) (o : object) (axes names : list value) :
  record_at h self Metadata o →
  obj_attrs o !! "axes" = Some (VList axes) →
  Forall2 (name_of h) axes names →
  ∃ l04 h1 l05 h2,
    to_v04 self h = (Return (VRef l04), h1) ∧
    from_v04 (VRef l04) h1 = (Return (VRef l05), h2) ∧
    l05 ≠ self ∧
    dimension_names l05 h2 = (Return (VTuple names), h2) ∧
    dimension_names self h2 = (Return (VTuple names), h2).
Proof.
  intros (Hl & _ & Ho) Haxes Hnames.
  set (m04 := Object Metadata_v04 (copied_attrs o)).
  set (h1 := (h ++ [m04])%list).
  set (m05 := Object Metadata (copied_attrs m04)).
  assert (Hm04 : h1 !! List.length h = Some m04)
    by (apply list_lookup_middle; reflexivity).
  assert (Ho4 : has_fields m04) by apply has_fields_copied_attrs.
  assert (Hself : (self < List.length h)%nat) by by eapply lookup_lt_Some.
  assert (Hlen : List.length h1 = S (List.length h)).
  { unfold h1. rewrite length_app. simpl. lia. }
  assert (Hax : "axes" ∈ FIELDS) by field_in.
  assert (Hnames2 : Forall2 (name_of (h1 ++ [m05])%list) axes names).
  { eapply Forall2_impl; [exact Hnames |]. intros ax n Hn.
    apply name_of_app. by apply name_of_app. }
  exists (List.length h), h1, (List.length h1), (h1 ++ [m05])%list.
  split_and!.
  - by apply to_v04_run.
  - by apply from_v04_run.
  - lia.
  - apply dimension_names_run with m05 axes; [| | done].
    + apply list_lookup_middle. reflexivity.
    + unfold m05. cbn [obj_attrs]. rewrite copied_attrs_lookup by done.
      unfold m04. cbn [obj_attrs]. by rewrite copied_attrs_lookup.
  - apply dimension_names_run with o axes; [| done | done].
    apply lookup_app_l_Some. by apply lookup_app_l_Some.
Qed.

Lemma dimension_names_round_trip_witness :
  ∃ l04 h1 l05 h2,
    to_v04 3 sample_heap = (Return (VRef l04), h1) ∧
    from_v04 (VRef l04) h1 = (Return (VRef l05), h2) ∧
    l05 ≠ 3 ∧
    dimension_names l05 h2
    = (Return (VTuple [VStr "z"; VStr "y"; VStr "x"]), h2) ∧
    dimension_names 3 h2
    = (Return (VTuple [VStr "z"; VStr "y"; VStr "x"]), h2).
Proof.
  apply (dimension_names_round_trip sample_heap 3 sample_v05
           [VRef 0; VRef 1; VRef 2] [VStr "z"; VStr "y"; VStr "x"]).
  - apply sample_v05_at.
  - reflexivity.
  - repeat constructor.
    + by exists 0, (axis_object "z").
    + by exists 1, (axis_object "y").
    + by exists 2, (axis_object "x").
Defined.

(** ** The alias table and [to_version] *)

Lemma VERSION_ALIASES_entries k v :
  VERSION_ALIASES !! k = Some v →
  (k ∈ SUPPORTED_VERSIONS ∧ v = k) ∨ (k = "latest" ∧ v = "0.6").
Proof.
  unfold VERSION_ALIASES, SUPPORTED_VERSIONS. intros Hk.
  apply lookup_insert_Some in Hk as [[<- <-] | [_ Hk]]; [by right |].
  apply lookup_insert_Some in Hk as [[<- <-] | [_ Hk]].
  { left. rewrite !elem_of_cons. auto. }
  apply lookup_insert_Some in Hk as [[<- <-] | [_ Hk]].
  { left. rewrite !elem_of_cons. auto. }
  apply lookup_insert_Some in Hk as [[<- <-] | [_ Hk]].
  { left. rewrite !elem_of_cons. auto. }
  by rewrite lookup_empty in Hk.
Qed.

Lemma VERSION_ALIASES_supported v :
  v ∈ SUPPORTED_VERSIONS → VERSION_ALIASES !! v = Some v.
Proof.
  unfold SUPPORTED_VERSIONS. rewrite !elem_of_cons, elem_of_nil.
  intros [->|[->|[->|[]]]]; reflexivity.
Qed.

Lemma VERSION_ALIASES_value_supported k v :
  VERSION_ALIASES !! k = Some v → v ∈ SUPPORTED_VERSIONS.
Proof.
  intros Hk. destruct (VERSION_ALIASES_entries k v Hk) as [[Hin ->] | [_ ->]];
    [done |].
  unfold SUPPORTED_VERSIONS. rewrite !elem_of_cons. auto.
Qed.

(** X10: resolving a name through the alias table always lands on a
    supported version, and resolving again changes nothing: the table is
    idempotent and its values are all in the supported list. *)
Theorem VERSION_ALIASES_idempotent (k v : string) :
  VERSION_ALIASES !! k = Some v →
  v ∈ SUPPORTED_VERSIONS ∧ VERSION_ALIASES !! v = Some v.
Proof.
  intros Hk. pose proof (VERSION_ALIASES_value_supported k v Hk) as Hv.
  split; [done | by apply VERSION_ALIASES_supported].
Qed.

Lemma VERSION_ALIASES_idempotent_witness :
  "0.6" ∈ SUPPORTED_VERSIONS ∧ VERSION_ALIASES !! "0.6" = Some "0.6".
Proof. apply (VERSION_ALIASES_idempotent "latest" "0.6"). reflexivity. Defined.

(** X11: a name resolved through the alias table first is never refused
    by [to_version]: on a 0.5 record, the call on the resolved version
    raises nothing, while the call on the unresolved name raises exactly
    when that name is not itself a supported version. *)
Theorem to_version_after_alias
    (h : heap) (self : loc) (o : object) (k v : string) :
  record_at h self Metadata o →
  VERSION_ALIASES !! k = Some v →
  ¬ raises (to_version self v h) ∧
  (raises (to_version self k h) ↔ k = "latest").
Proof.
  intros (Hl & _ & Ho) Hk.
  assert (Hok : ∀ w, w ∈ SUPPORTED_VERSIONS → ¬ raises (to_version self w h)).
  { intros w Hw [e He]. unfold SUPPORTED_VERSIONS in Hw.
    rewrite !elem_of_cons, elem_of_nil in Hw.
    destruct Hw as [->|[->|[->|[]]]]; try discriminate.
    rewrite to_version_04, (to_v04_run h self o Hl Ho) in He. discriminate. }
  split; [apply Hok; by eapply VERSION_ALIASES_value_supported |].
  destruct (VERSION_ALIASES_entries k v Hk) as [[Hin ->] | [-> ->]].
  - split; [by intros ?%Hok |]. intros ->.
    by apply latest_not_supported in Hin.
  - split; [done |]. intros _.
    rewrite to_version_guard by apply latest_not_supported. by eexists.
Qed.

Lemma to_version_after_alias_witness :
  ¬ raises (to_version 3 "0.6" sample_heap) ∧
  (raises (to_version 3 "latest" sample_heap) ↔ "latest" = "latest").
Proof.
  apply (to_version_after_alias sample_heap 3 sample_v05 "latest" "0.6").
  - apply sample_v05_at.
  - reflexivity.
Defined.
